(** * MeshParticleEmitter: a shallow embedding of
    src/Particles/EmitterTypes/meshParticleEmitter.ts

  Numbers are exact: a JavaScript number is a rational [Q], or one of the
  two non-numeric results the emitter can produce ([NaN], [undefined]).
  Rounding of binary64 arithmetic and the infinities are not represented.
  The ambient, module-level state of the program ([Math.random] and the
  scratch vectors [TmpVectors.Vector3]) is threaded through a small state
  monad; the emitter instance and the caller-owned output vector are
  passed in and handed back. *)

From Stdlib Require Import ZArith QArith Qminmax Qround List String Bool Lia Lqa.
Import ListNotations.

(* ================================================================== *)
(** ** JavaScript values and array subscripts *)

Module JS.

(** What a [number]-typed slot may hold at run time. *)
Inductive value : Type :=
  | Num (q : Q)
  | NaN
  | Undefined.

(** ToNumber: [undefined] becomes [NaN]. *)
Definition ToNumber (v : value) : option Q :=
  match v with
  | Num q => Some q
  | NaN | Undefined => None
  end.

Definition add (a b : value) : value :=
  match ToNumber a, ToNumber b with
  | Some p, Some q => Num (p + q)
  | _, _ => NaN
  end.

Definition mul (a b : value) : value :=
  match ToNumber a, ToNumber b with
  | Some p, Some q => Num (p * q)
  | _, _ => NaN
  end.

(** Truncation towards zero of an exact rational. *)
Definition truncate (q : Q) : Z := Z.quot (Qnum q) (Z.pos (Qden q)).

(** ToInt32: truncate, reduce modulo 2^32, read as a signed 32-bit
    integer. *)
Definition ToInt32 (q : Q) : Z :=
  let k := (truncate q mod 2 ^ 32)%Z in
  if (2 ^ 31 <=? k)%Z then (k - 2 ^ 32)%Z else k.

(** [a | b] on numbers. *)
Definition bitor (a b : Q) : Z := Z.lor (ToInt32 a) (ToInt32 b).

(** [a[i]] for an integer subscript: [None] is [undefined]. *)
Definition get {A : Type} (a : list A) (i : Z) : option A :=
  if (0 <=? i)%Z then nth_error a (Z.to_nat i) else None.

(** A subscript computed from a possibly-undefined integer: [None]
    stands for the [NaN] that [undefined * 3] evaluates to. *)
Definition subscript := option Z.

Definition times (i : option Z) (k : Z) : subscript :=
  option_map (fun v => (v * k)%Z) i.

Definition plus (i : subscript) (k : Z) : subscript :=
  option_map (fun v => (v + k)%Z) i.

(** [a[i]] where the subscript itself may be [NaN], read as a number
    slot. *)
Definition read (a : list value) (i : subscript) : value :=
  match i with
  | Some k => match get a k with Some v => v | None => Undefined end
  | None => Undefined
  end.

(** Truthiness of an optional string ([undefined] and the empty string
    are falsy). *)
Definition truthy (s : option string) : bool :=
  match s with
  | Some EmptyString => false
  | Some _ => true
  | None => false
  end.

End JS.

Import JS.

Declare Scope value_scope.
Delimit Scope value_scope with v.
Infix "+" := JS.add : value_scope.
Infix "*" := JS.mul : value_scope.

Definition IndicesArray := list Z.
Definition FloatArray := list value.

(* ================================================================== *)
(** ** Maths/math.vector *)

Module Vector3.

Record t : Type := mk { x : value; y : value; z : value }.

Definition Zero : t := mk (Num 0) (Num 0) (Num 0).

(** Modelled from the spec: [Vector3.FromArrayToRef] is library code that
    is not part of the sources at hand; buffers are laid out as
    consecutive [x, y, z] triples, so the three components are read at
    [offset], [offset + 1] and [offset + 2]. *)
Definition FromArrayToRef (array : FloatArray) (offset : subscript) : t :=
  mk (read array offset) (read array (plus offset 1)) (read array (plus offset 2)).

(** Modelled from the spec: [asArray] gives the record field its shape
    [[x, y, z]]. *)
Definition asArray (v : t) : list value := [x v; y v; z v].

End Vector3.

Module Matrix.

(** The sixteen entries [m[0] .. m[15]]; the translation sits in
    [m[12]], [m[13]], [m[14]]. *)
Record t : Type := mk { m : nat -> Q }.

Definition Identity : t :=
  mk (fun i => if (Nat.eqb i 0 || Nat.eqb i 5 || Nat.eqb i 10 || Nat.eqb i 15)%bool
               then 1 else 0).


End Matrix.

Section Transforms.
Local Open Scope value_scope.
Import Matrix.

(** Modelled from the spec: [Vector3.TransformNormalFromFloatsToRef] is
    library code that is not part of the sources at hand; a direction is
    transformed by the rotation and scale of the matrix, the translation
    is ignored. *)
Definition TransformNormalFromFloatsToRef (x y z : value) (transformation : Matrix.t)
  : Vector3.t :=
  let m := m transformation in
  Vector3.mk (x * Num (m 0%nat) + y * Num (m 4%nat) + z * Num (m 8%nat))
             (x * Num (m 1%nat) + y * Num (m 5%nat) + z * Num (m 9%nat))
             (x * Num (m 2%nat) + y * Num (m 6%nat) + z * Num (m 10%nat)).

(** Modelled from the spec: [Vector3.TransformNormalToRef], the same
    transform applied to a vector. *)
Definition TransformNormalToRef (vector : Vector3.t) (transformation : Matrix.t)
  : Vector3.t :=
  TransformNormalFromFloatsToRef (Vector3.x vector) (Vector3.y vector) (Vector3.z vector)
                                 transformation.

(** Modelled from the spec: [Vector3.TransformCoordinatesFromFloatsToRef]
    is library code that is not part of the sources at hand; the full
    coordinate transform of a point, translation included. *)
Definition TransformCoordinatesFromFloatsToRef (x y z : value) (transformation : Matrix.t)
  : Vector3.t :=
  let m := m transformation in
  Vector3.mk (x * Num (m 0%nat) + y * Num (m 4%nat) + z * Num (m 8%nat) + Num (m 12%nat))
             (x * Num (m 1%nat) + y * Num (m 5%nat) + z * Num (m 9%nat) + Num (m 13%nat))
             (x * Num (m 2%nat) + y * Num (m 6%nat) + z * Num (m 10%nat) + Num (m 14%nat)).

End Transforms.

(* ================================================================== *)
(** ** Ambient state: the random source and the scratch vectors *)

Record Ambient : Type := mkAmbient {
  draws : nat -> Q;                 (* the results Math.random() will give *)
  cursor : nat;                     (* how many have been consumed *)
  TmpVectors_Vector3 : nat -> Vector3.t
}.

Definition M (A : Type) : Type := Ambient -> A * Ambient.

Definition ret {A : Type} (a : A) : M A := fun s => (a, s).

Definition bind {A B : Type} (c : M A) (k : A -> M B) : M B :=
  fun s => let (a, s') := c s in k a s'.

Declare Scope monad_scope.
Delimit Scope monad_scope with monad.
Notation "x <- c ;; k" := (bind c (fun x => k))
  (at level 61, c at next level, right associativity) : monad_scope.
Notation "c ;; k" := (bind c (fun _ => k))
  (at level 61, right associativity) : monad_scope.

Module Math.

Definition random : M Q :=
  fun s => (draws s (cursor s),
            mkAmbient (draws s) (S (cursor s)) (TmpVectors_Vector3 s)).

End Math.

Module TmpVectors.

Definition get (i : nat) : M Vector3.t :=
  fun s => (TmpVectors_Vector3 s i, s).

Definition set (i : nat) (v : Vector3.t) : M unit :=
  fun s => (tt, mkAmbient (draws s) (cursor s)
                          (fun j => if Nat.eqb j i then v else TmpVectors_Vector3 s j)).

End TmpVectors.

Module Scalar.
Local Open Scope monad_scope.

(** Modelled from the spec: [Scalar.RandomRange] is library code that is
    not part of the sources at hand; it draws one uniform scalar in
    [[min(a, b), max(a, b)]]. *)
Definition RandomRange (a b : value) : M value :=
  r <- Math.random ;;
  ret match ToNumber a, ToNumber b with
      | Some p, Some q => Num (Qmin p q + r * (Qmax p q - Qmin p q))
      | _, _ => NaN
      end.

End Scalar.

(* ================================================================== *)
(** ** Collaborators: mesh and scene *)

Module VertexBuffer.

Inductive Kind : Type := PositionKind | NormalKind.

End VertexBuffer.

(** Modelled from the spec: the mesh is a collaborator that is not part of
    the sources at hand; it exposes an identifier, index data and float
    data per vertex kind, each of which may be absent. *)
Record AbstractMesh : Type := mkMesh {
  id : string;
  getIndices : option IndicesArray;
  getVerticesData : VertexBuffer.Kind -> option FloatArray
}.

(** Modelled from the spec: the scene resolves a mesh identifier to a mesh,
    or to nothing. *)
Record Scene : Type := mkScene {
  getLastMeshByID : string -> option AbstractMesh
}.

(* ================================================================== *)
(** ** The emitter *)

Record MeshParticleEmitter : Type := mkEmitter {
  _indices : option IndicesArray;
  _positions : option FloatArray;
  _normals : option FloatArray;
  _storedNormal : Vector3.t;
  direction1 : Vector3.t;
  direction2 : Vector3.t;
  useMeshNormalsForDirection : bool;
  mesh : option AbstractMesh
}.

Definition set_storedNormal (this : MeshParticleEmitter) (v : Vector3.t) :=
  mkEmitter (_indices this) (_positions this) (_normals this) v
            (direction1 this) (direction2 this) (useMeshNormalsForDirection this) (mesh this).

Definition set_direction1 (this : MeshParticleEmitter) (v : Vector3.t) :=
  mkEmitter (_indices this) (_positions this) (_normals this) (_storedNormal this)
            v (direction2 this) (useMeshNormalsForDirection this) (mesh this).

Definition set_direction2 (this : MeshParticleEmitter) (v : Vector3.t) :=
  mkEmitter (_indices this) (_positions this) (_normals this) (_storedNormal this)
            (direction1 this) v (useMeshNormalsForDirection this) (mesh this).

Definition set_useMeshNormalsForDirection (this : MeshParticleEmitter) (b : bool) :=
  mkEmitter (_indices this) (_positions this) (_normals this) (_storedNormal this)
            (direction1 this) (direction2 this) b (mesh this).

Definition set_mesh (this : MeshParticleEmitter) (o : option AbstractMesh) :=
  mkEmitter (_indices this) (_positions this) (_normals this) (_storedNormal this)
            (direction1 this) (direction2 this) (useMeshNormalsForDirection this) o.

(** [new MeshParticleEmitter(mesh)]: the field initialisers, then the
    constructor body, which takes the three buffers from the mesh. *)
Definition new_MeshParticleEmitter (mesh : option AbstractMesh) : MeshParticleEmitter :=
  let zeroOneZero := Vector3.mk (Num 0) (Num 1) (Num 0) in
  match mesh with
  | Some msh =>
      mkEmitter (getIndices msh)
                (getVerticesData msh VertexBuffer.PositionKind)
                (getVerticesData msh VertexBuffer.NormalKind)
                Vector3.Zero zeroOneZero zeroOneZero true mesh
  | None =>
      mkEmitter None None None Vector3.Zero zeroOneZero zeroOneZero true mesh
  end.

(** [this.useMeshNormalsForDirection && this._normals] as a condition. *)
Definition normalMode (this : MeshParticleEmitter) : bool :=
  useMeshNormalsForDirection this &&
  match _normals this with Some _ => true | None => false end.

Section Sampling.
Local Open Scope monad_scope.

(** Line 80: [3 * Math.random() * (this._indices.length / 3) | 0].  The
    products and the quotient bind tighter than [|].  The products and the
    quotient are exact here; the source rounds each to binary64, which
    gives the same index whenever they are representable (dyadic draws,
    as in the closed theorems below) and may differ by one otherwise. *)
Definition randomFaceIndex (length : nat) (random : Q) : Z :=
  bitor (3 * random * (inject_Z (Z.of_nat length) / 3)) 0.

(** Lines 81-83: [bu], [bv], [bw] from the second and third draw. *)
Definition barycentric (random1 random2 : Q) : Q * Q * Q :=
  let bu := random1 in
  let bv := random2 * (1 - bu) in
  let bw := 1 - bu - bv in
  (bu, bv, bw).

(** [bu * a + bv * b + bw * c] on one component; the products and sums
    are exact, where the source rounds each to binary64. *)
Definition mix (w : Q * Q * Q) (a b c : value) : value :=
  let '(bu, bv, bw) := w in
  (Num bu * a + Num bv * b + Num bw * c)%v.

(** The three component assignments of lines 97-99 and 108-110. *)
Definition interpolate (w : Q * Q * Q) (vertexA vertexB vertexC : Vector3.t) : Vector3.t :=
  Vector3.mk (mix w (Vector3.x vertexA) (Vector3.x vertexB) (Vector3.x vertexC))
             (mix w (Vector3.y vertexA) (Vector3.y vertexB) (Vector3.y vertexC))
             (mix w (Vector3.z vertexA) (Vector3.z vertexB) (Vector3.z vertexC)).

(** [Vector3.FromArrayToRef(array, offset, TmpVectors.Vector3[slot])]. *)
Definition loadTmp (array : FloatArray) (offset : subscript) (slot : nat) : M unit :=
  TmpVectors.set slot (Vector3.FromArrayToRef array offset).

Definition startDirectionFunction (this : MeshParticleEmitter) (worldMatrix : Matrix.t)
  (directionToUpdate : Vector3.t) : M Vector3.t :=
  if normalMode this then
    ret (TransformNormalToRef (_storedNormal this) worldMatrix)
  else
    randX <- Scalar.RandomRange (Vector3.x (direction1 this)) (Vector3.x (direction2 this)) ;;
    randY <- Scalar.RandomRange (Vector3.y (direction1 this)) (Vector3.y (direction2 this)) ;;
    randZ <- Scalar.RandomRange (Vector3.z (direction1 this)) (Vector3.z (direction2 this)) ;;
    ret (TransformNormalFromFloatsToRef randX randY randZ worldMatrix).

Definition startPositionFunction (this : MeshParticleEmitter) (worldMatrix : Matrix.t)
  (positionToUpdate : Vector3.t) : M (MeshParticleEmitter * Vector3.t) :=
  match _indices this, _positions this with
  | Some indices, Some positions =>
      random0 <- Math.random ;;
      let faceIndex := randomFaceIndex (List.length indices) random0 in
      random1 <- Math.random ;;
      random2 <- Math.random ;;
      let w := barycentric random1 random2 in
      let faceIndexA := JS.get indices faceIndex in
      let faceIndexB := JS.get indices (faceIndex + 1) in
      let faceIndexC := JS.get indices (faceIndex + 2) in
      loadTmp positions (times faceIndexA 3) 0 ;;
      loadTmp positions (times faceIndexB 3) 1 ;;
      loadTmp positions (times faceIndexC 3) 2 ;;
      vertexA <- TmpVectors.get 0 ;;
      vertexB <- TmpVectors.get 1 ;;
      vertexC <- TmpVectors.get 2 ;;
      TmpVectors.set 3 (interpolate w vertexA vertexB vertexC) ;;
      randomVertex <- TmpVectors.get 3 ;;
      let positionToUpdate :=
        TransformCoordinatesFromFloatsToRef (Vector3.x randomVertex) (Vector3.y randomVertex)
                                            (Vector3.z randomVertex) worldMatrix in
      match useMeshNormalsForDirection this, _normals this with
      | true, Some normals =>
          loadTmp normals (times faceIndexA 3) 0 ;;
          loadTmp normals (times faceIndexB 3) 1 ;;
          loadTmp normals (times faceIndexC 3) 2 ;;
          vertexA <- TmpVectors.get 0 ;;
          vertexB <- TmpVectors.get 1 ;;
          vertexC <- TmpVectors.get 2 ;;
          ret (set_storedNormal this (interpolate w vertexA vertexB vertexC), positionToUpdate)
      | _, _ => ret (this, positionToUpdate)
      end
  | _, _ => ret (this, positionToUpdate)
  end.

End Sampling.

(* ================================================================== *)
(** ** Lifecycle and serialization *)

Module DeepCopier.

(** Modelled from the spec: [DeepCopier.DeepCopy] is library code that is
    not part of the sources at hand; it deep-copies the public fields of
    the source into the destination and leaves the destination's private
    buffers and cached normal as they are.  The public fields are the
    configuration fields [direction1], [direction2] and
    [useMeshNormalsForDirection], and the [mesh] of line 41, which is
    handed to the copier with the whole object like the others.  What
    the copier makes of a mesh object is not determined by the sources at
    hand: it is the parameter [meshCopy] ([None] for a copier that
    assigns null, [Some] of the same mesh for one that keeps the
    reference).  An absent mesh is copied as absent. *)
Definition DeepCopy (meshCopy : AbstractMesh -> option AbstractMesh)
  (source destination : MeshParticleEmitter) : MeshParticleEmitter :=
  mkEmitter (_indices destination) (_positions destination) (_normals destination)
            (_storedNormal destination)
            (direction1 source) (direction2 source) (useMeshNormalsForDirection source)
            (match mesh source with
             | Some msh => meshCopy msh
             | None => None
             end).

(** A copier that does not clone a mesh: null is assigned in its place. *)
Definition meshAsNull (msh : AbstractMesh) : option AbstractMesh := None.

End DeepCopier.

Definition clone (meshCopy : AbstractMesh -> option AbstractMesh)
  (this : MeshParticleEmitter) : MeshParticleEmitter :=
  let newOne := new_MeshParticleEmitter (mesh this) in
  let newOne := DeepCopier.DeepCopy meshCopy this newOne in
  newOne.

Definition getClassName (this : MeshParticleEmitter) : string := "MeshParticleEmitter".

(** The serialized record.  Its fields carry a prefix because the emitter
    already owns the plain names. *)
Record SerializationObject : Type := mkSerialized {
  ser_type : string;
  ser_direction1 : list value;
  ser_direction2 : list value;
  ser_meshId : option string;
  ser_useMeshNormalsForDirection : bool
}.

Definition serialize (this : MeshParticleEmitter) : SerializationObject :=
  mkSerialized (getClassName this)
               (Vector3.asArray (direction1 this))
               (Vector3.asArray (direction2 this))
               (option_map id (mesh this))
               (useMeshNormalsForDirection this).

Definition parse (this : MeshParticleEmitter) (serializationObject : SerializationObject)
  (scene : Scene) : MeshParticleEmitter :=
  let this := set_direction1 this
                (Vector3.FromArrayToRef (ser_direction1 serializationObject) (Some 0%Z)) in
  let this := set_direction2 this
                (Vector3.FromArrayToRef (ser_direction2 serializationObject) (Some 0%Z)) in
  let this :=
    match ser_meshId serializationObject with
    | Some meshId =>
        if truthy (Some meshId)
        then set_mesh this (getLastMeshByID scene meshId)
        else this
    | None => this
    end in
  set_useMeshNormalsForDirection this (ser_useMeshNormalsForDirection serializationObject).

(* ================================================================== *)
(** ** Concrete data used by the examples below *)

Definition vec (a b c : Q) : Vector3.t := Vector3.mk (Num a) (Num b) (Num c).

Definition nums (l : list Q) : FloatArray := map Num l.

(** Two triangles over the unit square in the XY plane, normals +Z. *)
Definition squareMesh : AbstractMesh :=
  mkMesh "square" (Some [0; 1; 2; 0; 2; 3]%Z)
    (fun k => match k with
              | VertexBuffer.PositionKind => Some (nums [0; 0; 0; 1; 0; 0; 1; 1; 0; 0; 1; 0])
              | VertexBuffer.NormalKind => Some (nums [0; 0; 1; 0; 0; 1; 0; 0; 1; 0; 0; 1])
              end).

(** The same square with a different normal on every vertex. *)
Definition ridgeMesh : AbstractMesh :=
  mkMesh "ridge" (Some [0; 1; 2; 0; 2; 3]%Z)
    (fun k => match k with
              | VertexBuffer.PositionKind => Some (nums [0; 0; 0; 1; 0; 0; 1; 1; 0; 0; 1; 0])
              | VertexBuffer.NormalKind => Some (nums [1; 0; 0; 0; 1; 0; 0; 0; 1; 1; 1; 1])
              end).

(** One triangle. *)
Definition triangleMesh : AbstractMesh :=
  mkMesh "triangle" (Some [0; 1; 2]%Z)
    (fun k => match k with
              | VertexBuffer.PositionKind => Some (nums [0; 0; 0; 1; 0; 0; 0; 1; 0])
              | VertexBuffer.NormalKind => Some (nums [0; 0; 1; 0; 0; 1; 0; 0; 1])
              end).

(** A mesh whose index buffer is present but empty. *)
Definition emptyMesh : AbstractMesh :=
  mkMesh "empty" (Some []) (fun _ => Some []).

(** A random source that yields the listed values in order, then zeros;
    scratch vectors start at zero. *)
Definition ambientOf (l : list Q) : Ambient :=
  mkAmbient (fun i => nth i l 0) 0 (fun _ => Vector3.Zero).

Definition sceneOf (l : list AbstractMesh) : Scene :=
  mkScene (fun s => find (fun msh => String.eqb (id msh) s) (rev l)).

(** Numeric equality of slots and vectors, up to the representation of a
    rational. *)
Definition value_eqb (a b : value) : bool :=
  match a, b with
  | Num p, Num q => Qeq_bool p q
  | NaN, NaN => true
  | Undefined, Undefined => true
  | _, _ => false
  end.

Definition Vector3_eqb (a b : Vector3.t) : bool :=
  value_eqb (Vector3.x a) (Vector3.x b) &&
  value_eqb (Vector3.y a) (Vector3.y b) &&
  value_eqb (Vector3.z a) (Vector3.z b).

Definition NaN3 : Vector3.t := Vector3.mk NaN NaN NaN.

(** The selection as the specification words it: a triangle number
    [t = trunc(random * triangleCount)] with
    [triangleCount = length / 3], and a triple that starts at [3 * t]. *)
Definition spec_triangleIndex (length : nat) (random : Q) : Z :=
  truncate (random * (inject_Z (Z.of_nat length) / 3)).

Definition spec_faceStart (length : nat) (random : Q) : Z :=
  (3 * spec_triangleIndex length random)%Z.

(** The three subscripts position sampling reads from the index array. *)
Definition fetched (indices : IndicesArray) (faceIndex : Z) : list (option Z) :=
  [JS.get indices faceIndex; JS.get indices (faceIndex + 1); JS.get indices (faceIndex + 2)].

(** The vertex a fetched index selects in a float buffer. *)
Definition vertexAt (buffer : FloatArray) (faceIndexK : option Z) : Vector3.t :=
  Vector3.FromArrayToRef buffer (times faceIndexK 3).

(** The point or normal interpolated over the fetched triple. *)
Definition sampleOver (buffer : FloatArray) (indices : IndicesArray) (faceIndex : Z)
  (w : Q * Q * Q) : Vector3.t :=
  interpolate w (vertexAt buffer (JS.get indices faceIndex))
                (vertexAt buffer (JS.get indices (faceIndex + 1)))
                (vertexAt buffer (JS.get indices (faceIndex + 2))).

(** The face index and the weights a position call draws from the ambient
    random source: the first draw, then the second and third. *)
Definition drawnFaceIndex (indices : IndicesArray) (s : Ambient) : Z :=
  randomFaceIndex (List.length indices) (draws s (cursor s)).

Definition drawnWeights (s : Ambient) : Q * Q * Q :=
  barycentric (draws s (S (cursor s))) (draws s (S (S (cursor s)))).

Definition transformPoint (p : Vector3.t) (worldMatrix : Matrix.t) : Vector3.t :=
  TransformCoordinatesFromFloatsToRef (Vector3.x p) (Vector3.y p) (Vector3.z p) worldMatrix.

Definition undefined3 : Vector3.t := Vector3.mk Undefined Undefined Undefined.


(** A fetched index at or beyond the vertex count of a buffer of
    [3 * vertexCount] floats. *)
Definition beyondVertexCount (buffer : FloatArray) (v : Z) : Prop :=
  (Z.of_nat (List.length buffer) <= 3 * v)%Z.

(** One triangle whose last index names a vertex the buffers do not
    have. *)
Definition strayMesh : AbstractMesh :=
  mkMesh "stray" (Some [0; 1; 5]%Z)
    (fun k => match k with
              | VertexBuffer.PositionKind => Some (nums [0; 0; 0; 1; 0; 0; 0; 1; 0])
              | VertexBuffer.NormalKind => None
              end).


(** The call left the emitter and the output vector as they were. *)
Definition skipped (this : MeshParticleEmitter) (worldMatrix : Matrix.t)
  (positionToUpdate : Vector3.t) (s : Ambient) : Prop :=
  fst (startPositionFunction this worldMatrix positionToUpdate s) = (this, positionToUpdate).

(* ================================================================== *)
(** ** The remaining members of the emitter *)




Definition getEffectDefines (this : MeshParticleEmitter) : string := "".

(** [parse] called once per record, in order, on the same emitter. *)
Definition parseAll (this : MeshParticleEmitter) (records : list SerializationObject)
  (scene : Scene) : MeshParticleEmitter :=
  fold_left (fun e record => parse e record scene) records this.

(* ================================================================== *)
(** ** The UASTC to BC7 transcoder wrapper *)

Module LiteTranscoder_UASTC_BC7.

Section Formats.
(** The two enumerations live in a module that is not part of the sources
    at hand; their members are numbers, of which the wrapper names one
    each. *)
Variables (UASTC4x4 BC7_RGBA : Z).


End Formats.

Definition WasmModuleURL : string :=
  "https://preview.babylonjs.com/ktx2Transcoders/1/uastc_bc7.wasm".

Definition Name : string := "UniversalTranscoder_UASTC_BC7".

Definition getName : string := Name.

End LiteTranscoder_UASTC_BC7.

(* ================================================================== *)
(** * Properties *)

(** Closed comparisons of rationals and closed runs of the model are
    settled by evaluation. *)
Ltac evaluate := vm_compute; first [reflexivity | discriminate | congruence].

(** ** The position sampler, unfolded once *)

Section PositionSampler.
Variables (this : MeshParticleEmitter) (worldMatrix : Matrix.t)
          (positionToUpdate : Vector3.t) (s : Ambient).

Lemma startPositionFunction_absent :
  _indices this = None \/ _positions this = None ->
  startPositionFunction this worldMatrix positionToUpdate s = ((this, positionToUpdate), s).
Proof.
  unfold startPositionFunction.
  intros [H | H]; rewrite H; [ | destruct (_indices this) ]; reflexivity.
Qed.

Variables (indices : IndicesArray) (positions : FloatArray).
Hypothesis Hidx : _indices this = Some indices.
Hypothesis Hpos : _positions this = Some positions.

Lemma startPositionFunction_position :
  snd (fst (startPositionFunction this worldMatrix positionToUpdate s)) =
  transformPoint (sampleOver positions indices (drawnFaceIndex indices s) (drawnWeights s)) worldMatrix.
Proof.
  unfold startPositionFunction. rewrite Hidx, Hpos.
  destruct (useMeshNormalsForDirection this), (_normals this); reflexivity.
Qed.

Lemma startPositionFunction_emitter :
  fst (fst (startPositionFunction this worldMatrix positionToUpdate s)) =
  match useMeshNormalsForDirection this, _normals this with
  | true, Some normals => set_storedNormal this (sampleOver normals indices (drawnFaceIndex indices s) (drawnWeights s))
  | _, _ => this
  end.
Proof.
  unfold startPositionFunction. rewrite Hidx, Hpos.
  destruct (useMeshNormalsForDirection this), (_normals this); reflexivity.
Qed.

Lemma startPositionFunction_cursor :
  cursor (snd (startPositionFunction this worldMatrix positionToUpdate s)) = (3 + cursor s)%nat
  /\ draws (snd (startPositionFunction this worldMatrix positionToUpdate s)) = draws s.
Proof.
  unfold startPositionFunction. rewrite Hidx, Hpos.
  destruct (useMeshNormalsForDirection this), (_normals this); split; reflexivity.
Qed.

End PositionSampler.

(** ** Arithmetic of the face-index expression *)

Lemma bitor_zero (q : Q) : bitor q 0 = ToInt32 q.
Proof. unfold bitor. change (ToInt32 0) with 0%Z. apply Z.lor_0_r. Qed.

Lemma truncate_nonneg (q : Q) : 0 <= q -> truncate q = Qfloor q.
Proof.
  destruct q as [n d]. unfold Qle, truncate, Qfloor. simpl. intros H.
  apply Z.quot_div_nonneg; lia.
Qed.

Lemma ToInt32_small (q : Q) :
  0 <= q -> (Qfloor q < 2 ^ 31)%Z -> ToInt32 q = Qfloor q.
Proof.
  intros Hq Hlt. unfold ToInt32. rewrite (truncate_nonneg _ Hq).
  assert (0 <= Qfloor q)%Z by (change 0%Z with (Qfloor 0); now apply Qfloor_resp_le).
  rewrite Z.mod_small by lia.
  destruct (Z.leb_spec (2 ^ 31) (Qfloor q)); [lia | reflexivity].
Qed.

Lemma faceIndex_expression (n : Z) (r : Q) :
  3 * r * (inject_Z n / 3) == r * inject_Z n.
Proof. field. Qed.

(** Over exact rationals, for a draw in [0, 1) over an index array of
    [n] entries the expression is [floor (r * n)], any subscript of the
    array.  (With binary64 rounding the index can be one more.) *)
Lemma randomFaceIndex_floor (n : nat) (r : Q) :
  0 <= r -> r < 1 -> (Z.of_nat n < 2 ^ 31)%Z ->
  randomFaceIndex n r = Qfloor (r * inject_Z (Z.of_nat n))
  /\ (0 <= randomFaceIndex n r)%Z
  /\ ((0 < n)%nat -> (randomFaceIndex n r < Z.of_nat n)%Z).
Proof.
  intros H0 H1 Hn. unfold randomFaceIndex. rewrite bitor_zero.
  set (N := Z.of_nat n) in *.
  assert (HN : 0 <= inject_Z N).
  { change 0 with (inject_Z 0). rewrite <- Zle_Qle. subst N. lia. }
  assert (Hprod : 0 <= r * inject_Z N) by (apply Qmult_le_0_compat; assumption).
  assert (Hle : r * inject_Z N <= inject_Z N).
  { rewrite <- (Qmult_1_l (inject_Z N)) at 2.
    apply Qmult_le_compat_r; [apply Qlt_le_weak | ]; assumption. }
  assert (Hfl : (Qfloor (r * inject_Z N) <= N)%Z).
  { apply Z.le_trans with (Qfloor (inject_Z N));
      [now apply Qfloor_resp_le | rewrite Qfloor_Z; lia]. }
  assert (Hf0 : (0 <= Qfloor (r * inject_Z N))%Z).
  { change 0%Z with (Qfloor 0). now apply Qfloor_resp_le. }
  assert (Heq : Qfloor (3 * r * (inject_Z N / 3)) = Qfloor (r * inject_Z N)).
  { apply Qfloor_comp, faceIndex_expression. }
  rewrite ToInt32_small.
  - rewrite Heq. repeat split; try assumption.
    intros Hpos. rewrite Zlt_Qlt.
    apply Qle_lt_trans with (r * inject_Z N); [apply Qfloor_le | ].
    assert (HposN : 0 < inject_Z N).
    { change 0 with (inject_Z 0). rewrite <- Zlt_Qlt. subst N. lia. }
    rewrite <- (Qmult_1_l (inject_Z N)) at 2.
    apply Qmult_lt_compat_r; assumption.
  - rewrite faceIndex_expression. assumption.
  - rewrite Heq. lia.
Qed.

(** Over exact rationals every subscript [k] of the array is reached, by
    the draw [k / n]. *)
Lemma randomFaceIndex_reaches (n : nat) (k : Z) :
  (0 <= k < Z.of_nat n)%Z -> (Z.of_nat n < 2 ^ 31)%Z ->
  let r := inject_Z k / inject_Z (Z.of_nat n) in
  0 <= r /\ r < 1 /\ randomFaceIndex n r = k.
Proof.
  intros Hk Hn r.
  assert (HN : 0 < inject_Z (Z.of_nat n)).
  { change 0 with (inject_Z 0). rewrite <- Zlt_Qlt. lia. }
  assert (Hk0 : 0 <= inject_Z k).
  { change 0 with (inject_Z 0). rewrite <- Zle_Qle. lia. }
  assert (Hkn : inject_Z k < inject_Z (Z.of_nat n)) by (rewrite <- Zlt_Qlt; lia).
  assert (Hr0 : 0 <= r).
  { unfold r. apply Qle_shift_div_l; [assumption | ]. now rewrite Qmult_0_l. }
  assert (Hr1 : r < 1).
  { unfold r. apply Qlt_shift_div_r; [assumption | ]. now rewrite Qmult_1_l. }
  repeat split; try assumption.
  destruct (randomFaceIndex_floor n _ Hr0 Hr1 Hn) as [-> _].
  transitivity (Qfloor (inject_Z k)); [ | apply Qfloor_Z ].
  apply Qfloor_comp. unfold r. field. intro E. rewrite E in HN. now apply Qlt_irrefl in HN.
Qed.

(** Over exact rationals, for every index array of at least three
    entries some draw in [0, 1) sends the last two reads past the end of
    the array. *)
Lemma randomFaceIndex_overrun (n : nat) :
  (3 <= n)%nat -> (Z.of_nat n < 2 ^ 31)%Z ->
  exists r, 0 <= r /\ r < 1 /\ (Z.of_nat n <= randomFaceIndex n r + 1)%Z.
Proof.
  intros H3 Hn.
  destruct (randomFaceIndex_reaches n (Z.of_nat n - 1)) as (H0 & H1 & E); try lia.
  eexists. split; [exact H0 | split; [exact H1 | rewrite E; lia]].
Qed.

(** ** Claims about triangle selection *)

(** C1 (the code departs from the claim).  On the two-triangle square with
    the first draw 1/4 the expression of line 80 evaluates to 1: the
    fetched triple is [indices[1], indices[2], indices[3]], which starts
    at no multiple of 3, where the claimed selection [3 * trunc (r *
    triangleCount)] starts at 0; the sampled position differs
    accordingly. *)
Theorem C1_fetched_triple_not_aligned :
  let indices := [0; 1; 2; 0; 2; 3]%Z in
  let positions := nums [0; 0; 0; 1; 0; 0; 1; 1; 0; 0; 1; 0] in
  let this := new_MeshParticleEmitter (Some squareMesh) in
  let s := ambientOf [1 # 4; 1 # 2; 1 # 2] in
  _indices this = Some indices /\ _positions this = Some positions /\
  drawnFaceIndex indices s = 1%Z /\
  (drawnFaceIndex indices s mod 3 <> 0)%Z /\
  spec_faceStart (List.length indices) (1 # 4) = 0%Z /\
  fetched indices (drawnFaceIndex indices s) = [Some 1; Some 2; Some 0]%Z /\
  fetched indices (spec_faceStart (List.length indices) (1 # 4))
    = [Some 0; Some 1; Some 2]%Z /\
  Vector3_eqb (snd (fst (startPositionFunction this Matrix.Identity (vec 7 7 7) s)))
              (vec (3 # 4) (1 # 4) 0) = true /\
  Vector3_eqb (transformPoint
                 (sampleOver positions indices (spec_faceStart (List.length indices) (1 # 4))
                             (drawnWeights s))
                 Matrix.Identity)
              (vec (1 # 2) (1 # 4) 0) = true.
Proof.
  cbv zeta. repeat split; try reflexivity.
  vm_compute. discriminate.
Qed.

(** C10 (the code departs from the claim).  On a single triangle (three
    indices) the draw 3/4 gives face index 2, so [indices[3]] and
    [indices[4]] are read past the end of the array: both are
    [undefined], and the position written has [NaN] in every
    component. *)
Theorem C10_reads_past_the_end :
  let indices := [0; 1; 2]%Z in
  let this := new_MeshParticleEmitter (Some triangleMesh) in
  let s := ambientOf [3 # 4; 1 # 2; 1 # 2] in
  _indices this = Some indices /\
  (3 <= List.length indices)%nat /\
  0 <= draws s (cursor s) /\ draws s (cursor s) < 1 /\
  drawnFaceIndex indices s = 2%Z /\
  ~ (drawnFaceIndex indices s + 2 < Z.of_nat (List.length indices))%Z /\
  fetched indices (drawnFaceIndex indices s) = [Some 2%Z; None; None] /\
  snd (fst (startPositionFunction this Matrix.Identity (vec 7 7 7) s)) = NaN3.
Proof.
  cbv zeta. repeat split; try reflexivity; evaluate.
Qed.

(** ** Claims about the barycentric weights *)

(** C7.  For two draws in [0, 1) the weights of lines 81-83 are
    non-negative and sum to one, over exact arithmetic. *)
Theorem C7_barycentric_weights (r1 r2 : Q) :
  0 <= r1 -> r1 < 1 -> 0 <= r2 -> r2 < 1 ->
  let '(bu, bv, bw) := barycentric r1 r2 in
  bu = r1 /\ bv = r2 * (1 - bu) /\ bw = 1 - bu - bv /\
  0 <= bu /\ 0 <= bv /\ 0 <= bw /\ bu + bv + bw == 1.
Proof.
  intros H1 H1' H2 H2'. unfold barycentric.
  assert (Hc : 0 <= 1 - r1) by lra.
  assert (Hbv : 0 <= r2 * (1 - r1)) by (apply Qmult_le_0_compat; assumption).
  assert (Hbw : 0 <= (1 - r2) * (1 - r1)) by (apply Qmult_le_0_compat; lra).
  repeat split; try reflexivity; try assumption.
  - setoid_replace (1 - r1 - r2 * (1 - r1)) with ((1 - r2) * (1 - r1)) by ring.
    assumption.
  - ring.
Qed.

Lemma C7_barycentric_weights_witness :
  (0 <= 1 # 2 /\ 1 # 2 < 1 /\ 0 <= 3 # 4 /\ 3 # 4 < 1) /\
  let '(bu, bv, bw) := barycentric (1 # 2) (3 # 4) in
  bu = 1 # 2 /\ bv = (3 # 4) * (1 - bu) /\ bw = 1 - bu - bv /\
  0 <= bu /\ 0 <= bv /\ 0 <= bw /\ bu + bv + bw == 1.
Proof.
  split; [repeat split; evaluate | ].
  apply (C7_barycentric_weights (1 # 2) (3 # 4)); evaluate.
Defined.

(** ** Claims about absent buffers *)

(** C5.  With the index array or the position array absent the position
    call returns at once: the output vector, the emitter (cached normal
    included) and the ambient state (no draw taken, no scratch vector
    written) are those it was given. *)
Theorem C5_absent_buffers_no_op (this : MeshParticleEmitter) (worldMatrix : Matrix.t)
  (positionToUpdate : Vector3.t) (s : Ambient) :
  _indices this = None \/ _positions this = None ->
  startPositionFunction this worldMatrix positionToUpdate s = ((this, positionToUpdate), s).
Proof. apply startPositionFunction_absent. Qed.

Lemma C5_absent_buffers_no_op_witness :
  (_indices (new_MeshParticleEmitter None) = None \/
   _positions (new_MeshParticleEmitter None) = None) /\
  startPositionFunction (new_MeshParticleEmitter None) Matrix.Identity (vec 7 7 7)
                        (ambientOf [1 # 4])
  = ((new_MeshParticleEmitter None, vec 7 7 7), ambientOf [1 # 4]).
Proof.
  split; [left; reflexivity | ].
  apply (C5_absent_buffers_no_op (new_MeshParticleEmitter None)).
  left. reflexivity.
Defined.

(** ** Non-numbers propagate *)

Lemma mix_not_a_number (w : Q * Q * Q) (a b c : value) :
  ToNumber a = None \/ ToNumber b = None \/ ToNumber c = None ->
  mix w a b c = NaN.
Proof.
  destruct w as [[bu bv] bw]. unfold mix, JS.add, JS.mul.
  intros [H | [H | H]]; destruct a, b, c; simpl in *; congruence.
Qed.

Lemma interpolate_undefined (w : Q * Q * Q) (a b c : Vector3.t) :
  a = undefined3 \/ b = undefined3 \/ c = undefined3 ->
  interpolate w a b c = NaN3.
Proof.
  intros H. unfold interpolate, NaN3.
  f_equal; apply mix_not_a_number; destruct H as [-> | [-> | ->]]; simpl; auto.
Qed.

Lemma transformPoint_NaN3 (worldMatrix : Matrix.t) :
  transformPoint NaN3 worldMatrix = NaN3.
Proof. reflexivity. Qed.

Lemma read_past_end (a : FloatArray) (k : Z) :
  (Z.of_nat (List.length a) <= k)%Z -> read a (Some k) = Undefined.
Proof.
  intros H. unfold read, JS.get.
  destruct (Z.leb_spec 0 k); [ | reflexivity].
  replace (nth_error a (Z.to_nat k)) with (@None value); [reflexivity | ].
  symmetry. apply nth_error_None. lia.
Qed.

Lemma vertexAt_undefined (buffer : FloatArray) :
  vertexAt buffer None = undefined3.
Proof. reflexivity. Qed.

Lemma vertexAt_out_of_range (buffer : FloatArray) (v : Z) :
  (Z.of_nat (List.length buffer) <= 3 * v)%Z ->
  vertexAt buffer (Some v) = undefined3.
Proof.
  intros H. unfold vertexAt, Vector3.FromArrayToRef, undefined3. simpl.
  f_equal; apply read_past_end; lia.
Qed.

Lemma get_nil (A : Type) (i : Z) : JS.get (@nil A) i = None.
Proof. unfold JS.get. destruct (0 <=? i)%Z; [ | reflexivity]. now destruct (Z.to_nat i). Qed.

Lemma sampleOver_nil (buffer : FloatArray) (faceIndex : Z) (w : Q * Q * Q) :
  sampleOver buffer [] faceIndex w = NaN3.
Proof.
  unfold sampleOver. rewrite !get_nil, vertexAt_undefined.
  apply interpolate_undefined. now left.
Qed.

Lemma sampleOver_out_of_range (buffer : FloatArray) (indices : IndicesArray)
  (faceIndex : Z) (w : Q * Q * Q) (v : Z) :
  In (Some v) (fetched indices faceIndex) ->
  (Z.of_nat (List.length buffer) <= 3 * v)%Z ->
  sampleOver buffer indices faceIndex w = NaN3.
Proof.
  intros Hin Hv. unfold sampleOver. apply interpolate_undefined.
  pose proof (vertexAt_out_of_range buffer v Hv) as E.
  destruct Hin as [H | [H | [H | []]]]; rewrite H, E; auto.
Qed.

(** ** Claims about degenerate geometry *)

(** C3, as stated, fails: on an empty index array the call writes the
    output position and the cached normal, and with an index beyond the
    vertex count it writes the output position. *)
Lemma C3_counterexample :
  let this := new_MeshParticleEmitter (Some emptyMesh) in
  let r := startPositionFunction this Matrix.Identity (vec 7 7 7) (ambientOf []) in
  let stray := new_MeshParticleEmitter (Some strayMesh) in
  let r' := startPositionFunction stray Matrix.Identity (vec 7 7 7)
                                  (ambientOf [0; 1 # 2; 1 # 2]) in
  (_indices this = Some [] /\ _positions this = Some [] /\
   ~ skipped this Matrix.Identity (vec 7 7 7) (ambientOf []) /\
   snd (fst r) <> vec 7 7 7 /\
   _storedNormal (fst (fst r)) <> _storedNormal this)
  /\
  (_indices stray = Some [0; 1; 5]%Z /\
   (exists positions, _positions stray = Some positions /\ beyondVertexCount positions 5) /\
   ~ skipped stray Matrix.Identity (vec 7 7 7) (ambientOf [0; 1 # 2; 1 # 2]) /\
   snd (fst r') <> vec 7 7 7).
Proof.
  cbv zeta. unfold skipped.
  repeat split; try reflexivity; try evaluate.
  eexists. split; [reflexivity | evaluate].
Qed.

(** C3, amended.  Position sampling has no guard for degenerate geometry
    and never fails: with an empty index array, or when one of the three
    fetched indices is at or beyond the vertex count, the call completes
    and overwrites the output position with [NaN] in every component; with
    an empty index array the cached normal is overwritten with [NaN]
    components when normal mode is active and normals are present, and is
    unchanged otherwise. *)
Theorem C3_degenerate_geometry_writes_NaN (this : MeshParticleEmitter)
  (worldMatrix : Matrix.t) (positionToUpdate : Vector3.t) (s : Ambient)
  (indices : IndicesArray) (positions : FloatArray) :
  _indices this = Some indices -> _positions this = Some positions ->
  indices = [] \/
  (exists v, In (Some v) (fetched indices (drawnFaceIndex indices s))
             /\ beyondVertexCount positions v) ->
  let r := startPositionFunction this worldMatrix positionToUpdate s in
  snd (fst r) = NaN3 /\
  (indices = [] ->
   _storedNormal (fst (fst r)) = if normalMode this then NaN3 else _storedNormal this).
Proof.
  intros Hidx Hpos Hdeg. cbv zeta. split.
  - rewrite (startPositionFunction_position _ _ _ _ _ _ Hidx Hpos).
    destruct Hdeg as [-> | (v & Hin & Hv)].
    + now rewrite sampleOver_nil.
    + now rewrite (sampleOver_out_of_range _ _ _ _ _ Hin Hv).
  - intros ->. rewrite (startPositionFunction_emitter _ _ _ _ _ _ Hidx Hpos).
    unfold normalMode.
    destruct (useMeshNormalsForDirection this), (_normals this); try reflexivity.
    simpl. apply sampleOver_nil.
Qed.

Lemma C3_degenerate_geometry_writes_NaN_witness :
  let this := new_MeshParticleEmitter (Some emptyMesh) in
  let r := startPositionFunction this Matrix.Identity (vec 7 7 7) (ambientOf []) in
  (_indices this = Some [] /\ _positions this = Some []) /\
  snd (fst r) = NaN3 /\
  ([] = @nil Z ->
   _storedNormal (fst (fst r)) = if normalMode this then NaN3 else _storedNormal this).
Proof.
  cbv zeta. split; [split; reflexivity | ].
  apply (C3_degenerate_geometry_writes_NaN
           (new_MeshParticleEmitter (Some emptyMesh)) Matrix.Identity (vec 7 7 7)
           (ambientOf []) [] []).
  - reflexivity.
  - reflexivity.
  - left. reflexivity.
Defined.

(** ** Claims about direction sampling *)


Lemma startPositionFunction_keeps_mode (this : MeshParticleEmitter) (worldMatrix : Matrix.t)
  (positionToUpdate : Vector3.t) (s : Ambient) :
  normalMode (fst (fst (startPositionFunction this worldMatrix positionToUpdate s)))
  = normalMode this.
Proof.
  unfold startPositionFunction.
  destruct (_indices this), (_positions this); try reflexivity.
  unfold normalMode.
  destruct (useMeshNormalsForDirection this) eqn:Eu, (_normals this) eqn:En; simpl;
    rewrite ?Eu, ?En; reflexivity.
Qed.

Lemma startDirectionFunction_normal (this : MeshParticleEmitter) (worldMatrix : Matrix.t)
  (directionToUpdate : Vector3.t) (s : Ambient) :
  normalMode this = true ->
  startDirectionFunction this worldMatrix directionToUpdate s
  = (TransformNormalToRef (_storedNormal this) worldMatrix, s).
Proof. unfold startDirectionFunction. now intros ->. Qed.

(** What holds of the handoff whatever triple is fetched: with normal
    mode on and normals present, a position call that samples stores in
    the cached normal, component by component,
    [bu * nA + bv * nB + bw * nC] over the normals at the three fetched
    indices, with the weights of the position, neither normalised nor
    transformed; the direction call that follows returns the normal
    transform of that cached normal and takes no draw. *)
Lemma cached_normal_of_fetched_triple (this : MeshParticleEmitter) (worldMatrix : Matrix.t)
  (positionToUpdate : Vector3.t) (s : Ambient)
  (indices : IndicesArray) (positions normals : FloatArray) :
  useMeshNormalsForDirection this = true -> _normals this = Some normals ->
  _indices this = Some indices -> _positions this = Some positions ->
  let faceIndex := drawnFaceIndex indices s in
  let bu := draws s (S (cursor s)) in
  let bv := draws s (S (S (cursor s))) * (1 - bu) in
  let bw := 1 - bu - bv in
  let nA := Vector3.FromArrayToRef normals (times (JS.get indices faceIndex) 3) in
  let nB := Vector3.FromArrayToRef normals (times (JS.get indices (faceIndex + 1)) 3) in
  let nC := Vector3.FromArrayToRef normals (times (JS.get indices (faceIndex + 2)) 3) in
  let r := startPositionFunction this worldMatrix positionToUpdate s in
  _storedNormal (fst (fst r))
  = Vector3.mk
      (Num bu * Vector3.x nA + Num bv * Vector3.x nB + Num bw * Vector3.x nC)%v
      (Num bu * Vector3.y nA + Num bv * Vector3.y nB + Num bw * Vector3.y nC)%v
      (Num bu * Vector3.z nA + Num bv * Vector3.z nB + Num bw * Vector3.z nC)%v /\
  forall (worldMatrix' : Matrix.t) (directionToUpdate : Vector3.t),
    startDirectionFunction (fst (fst r)) worldMatrix' directionToUpdate (snd r)
    = (TransformNormalToRef (_storedNormal (fst (fst r))) worldMatrix', snd r).
Proof.
  intros Hflag Hnrm Hidx Hpos. cbv zeta. split.
  - rewrite (startPositionFunction_emitter _ _ _ _ _ _ Hidx Hpos), Hflag, Hnrm.
    reflexivity.
  - intros worldMatrix' directionToUpdate. apply startDirectionFunction_normal.
    rewrite startPositionFunction_keeps_mode. unfold normalMode. now rewrite Hflag, Hnrm.
Qed.

(** C2 (the code departs from the claim).  The normals interpolated are
    those of the triple line 80 selects, which need not be a triangle.
    On the square with a different normal on every vertex (normals
    (1,0,0), (0,1,0), (0,0,1), (1,1,1)) and the draws 3/8, 1/2, 1/2 the
    face index is 2, the triple fetched is [indices[2..4]] = 2, 0, 2, and
    with weights 1/2, 1/4, 1/4 the cached normal is (1/4, 0, 3/4): neither
    (1/2, 1/4, 1/4), the interpolation over the claimed triangle 0, 1, 2,
    nor (3/4, 1/4, 1/2), that over the other triangle 0, 2, 3; the
    direction call hands on (1/4, 0, 3/4).  On the square whose normals
    are all (0,0,1) and the first draw 7/8 the face index is 5, two reads
    fall past the end, and cached normal and direction are [NaN] in every
    component. *)
Theorem C2_cached_normal_off_triangle :
  let indices := [0; 1; 2; 0; 2; 3]%Z in
  let normals := nums [1; 0; 0; 0; 1; 0; 0; 0; 1; 1; 1; 1] in
  let this := new_MeshParticleEmitter (Some ridgeMesh) in
  let s := ambientOf [3 # 8; 1 # 2; 1 # 2] in
  let r := startPositionFunction this Matrix.Identity (vec 7 7 7) s in
  let flat := new_MeshParticleEmitter (Some squareMesh) in
  let late := startPositionFunction flat Matrix.Identity (vec 7 7 7)
                                    (ambientOf [7 # 8; 1 # 2; 1 # 2]) in
  (useMeshNormalsForDirection this = true /\ _normals this = Some normals /\
   _indices this = Some indices) /\
  (drawnFaceIndex indices s = 2%Z /\
   fetched indices (drawnFaceIndex indices s) = [Some 2; Some 0; Some 2]%Z /\
   spec_faceStart (List.length indices) (3 # 8) = 0%Z /\
   fetched indices (spec_faceStart (List.length indices) (3 # 8))
   = [Some 0; Some 1; Some 2]%Z) /\
  (Vector3_eqb (_storedNormal (fst (fst r))) (vec (1 # 4) 0 (3 # 4)) = true /\
   Vector3_eqb (_storedNormal (fst (fst r))) (vec (1 # 2) (1 # 4) (1 # 4)) = false /\
   Vector3_eqb (_storedNormal (fst (fst r))) (vec (3 # 4) (1 # 4) (1 # 2)) = false /\
   Vector3_eqb (sampleOver normals indices (spec_faceStart (List.length indices) (3 # 8))
                           (drawnWeights s))
               (vec (1 # 2) (1 # 4) (1 # 4)) = true /\
   Vector3_eqb (fst (startDirectionFunction (fst (fst r)) Matrix.Identity (vec 7 7 7)
                                            (snd r)))
               (vec (1 # 4) 0 (3 # 4)) = true) /\
  (_normals flat = Some (nums [0; 0; 1; 0; 0; 1; 0; 0; 1; 0; 0; 1]) /\
   fetched indices (drawnFaceIndex indices (ambientOf [7 # 8; 1 # 2; 1 # 2]))
   = [Some 3%Z; None; None] /\
   _storedNormal (fst (fst late)) = NaN3 /\
   fst (startDirectionFunction (fst (fst late)) Matrix.Identity (vec 7 7 7) (snd late))
   = NaN3).
Proof.
  cbv zeta. repeat split; reflexivity.
Qed.




(** ** Claims about the lifecycle *)

Lemma Vector3_eta (v : Vector3.t) :
  Vector3.FromArrayToRef (Vector3.asArray v) (Some 0%Z) = v.
Proof. now destruct v. Qed.

(** C8.  The serialized record has the type tag, both directions as
    [[x, y, z]], the identifier of the mesh when there is one, and the
    mode flag; parsing it into any emitter, a fresh one included, gives
    back the two directions and the flag. *)
Theorem C8_serialize_parse_round_trip (e target : MeshParticleEmitter) (scene : Scene) :
  serialize e
  = mkSerialized "MeshParticleEmitter"
      [Vector3.x (direction1 e); Vector3.y (direction1 e); Vector3.z (direction1 e)]
      [Vector3.x (direction2 e); Vector3.y (direction2 e); Vector3.z (direction2 e)]
      (match mesh e with Some msh => Some (id msh) | None => None end)
      (useMeshNormalsForDirection e) /\
  (direction1 (parse target (serialize e) scene) = direction1 e /\
   direction2 (parse target (serialize e) scene) = direction2 e /\
   useMeshNormalsForDirection (parse target (serialize e) scene)
   = useMeshNormalsForDirection e) /\
  (direction1 (parse (new_MeshParticleEmitter None) (serialize e) scene) = direction1 e /\
   direction2 (parse (new_MeshParticleEmitter None) (serialize e) scene) = direction2 e /\
   useMeshNormalsForDirection (parse (new_MeshParticleEmitter None) (serialize e) scene)
   = useMeshNormalsForDirection e).
Proof.
  assert (H : forall t,
             direction1 (parse t (serialize e) scene) = direction1 e /\
             direction2 (parse t (serialize e) scene) = direction2 e /\
             useMeshNormalsForDirection (parse t (serialize e) scene)
             = useMeshNormalsForDirection e).
  { intros t. unfold parse, serialize. cbn [ser_direction1 ser_direction2 ser_meshId
      ser_useMeshNormalsForDirection].
    destruct (mesh e) as [msh | ]; cbn [option_map];
      [destruct (truthy (Some (id msh))) | ]; cbn; rewrite !Vector3_eta; auto. }
  split; [unfold serialize; destruct (mesh e); reflexivity | ].
  split; apply H.
Qed.

(** What holds of [clone] for every copier: the clone has the buffers
    its constructor takes from the mesh of the original, the directions
    and the flag of the original and the initial cached normal; its mesh
    reference is what the copier makes of the original's. *)
Lemma clone_configuration (meshCopy : AbstractMesh -> option AbstractMesh)
  (e : MeshParticleEmitter) :
  match mesh e with
  | Some msh =>
      _indices (clone meshCopy e) = getIndices msh /\
      _positions (clone meshCopy e) = getVerticesData msh VertexBuffer.PositionKind /\
      _normals (clone meshCopy e) = getVerticesData msh VertexBuffer.NormalKind /\
      mesh (clone meshCopy e) = meshCopy msh
  | None =>
      _indices (clone meshCopy e) = None /\ _positions (clone meshCopy e) = None /\
      _normals (clone meshCopy e) = None /\ mesh (clone meshCopy e) = None
  end /\
  direction1 (clone meshCopy e) = direction1 e /\
  direction2 (clone meshCopy e) = direction2 e /\
  useMeshNormalsForDirection (clone meshCopy e) = useMeshNormalsForDirection e /\
  _storedNormal (clone meshCopy e) = Vector3.Zero.
Proof.
  unfold clone, new_MeshParticleEmitter.
  destruct (mesh e) eqn:E; cbn; rewrite ?E; repeat split; reflexivity.
Qed.

(** The serialized record of the clone is that of the original as soon
    as the copier keeps the identifier of the mesh. *)
Lemma clone_record (meshCopy : AbstractMesh -> option AbstractMesh)
  (e : MeshParticleEmitter) :
  (forall msh, mesh e = Some msh -> option_map id (meshCopy msh) = Some (id msh)) ->
  serialize (clone meshCopy e) = serialize e.
Proof.
  intros H. unfold clone, serialize, new_MeshParticleEmitter.
  destruct (mesh e) as [msh | ] eqn:E; cbn; rewrite ?E; cbn; [ | reflexivity].
  now rewrite (H msh eq_refl).
Qed.

(** C9 (the code departs from the claim).  [clone] constructs the new
    emitter on the mesh of the original and then hands both whole objects
    to the copier, which overwrites the public [mesh] field of the clone.
    With a copier that assigns null for a mesh, as the engine's does, the
    clone of an emitter bound to the square has no mesh reference and its
    serialized record has no mesh identifier, where the original's has
    "square"; buffers, directions and flag are those of the original. *)
Theorem C9_clone_drops_mesh_reference :
  let e := new_MeshParticleEmitter (Some squareMesh) in
  let c := clone DeepCopier.meshAsNull e in
  (mesh e = Some squareMesh /\ mesh c = None) /\
  (ser_meshId (serialize e) = Some "square"%string /\ ser_meshId (serialize c) = None /\
   serialize c <> serialize e) /\
  (_indices c = _indices e /\ _positions c = _positions e /\ _normals c = _normals e) /\
  (direction1 c = direction1 e /\ direction2 c = direction2 e /\
   useMeshNormalsForDirection c = useMeshNormalsForDirection e).
Proof.
  cbv zeta. repeat split; try reflexivity.
  intro H. apply (f_equal ser_meshId) in H. discriminate H.
Qed.

Lemma parse_keeps_buffers (this : MeshParticleEmitter) (record : SerializationObject)
  (scene : Scene) :
  _indices (parse this record scene) = _indices this /\
  _positions (parse this record scene) = _positions this /\
  _normals (parse this record scene) = _normals this.
Proof.
  unfold parse. destruct (ser_meshId record) as [meshId | ];
    [destruct (truthy (Some meshId)) | ]; cbn; auto.
Qed.

(** C4 (the code departs from the claim).  Parsing the record of an
    emitter bound to the square into a fresh emitter, with a scene that
    resolves the identifier, restores the directions and the flag and sets
    the mesh reference, and extracts nothing: the three buffers stay
    absent, where the constructor takes them from the same mesh, and
    position sampling is a no-op.  Parsing a record whose identifier does
    not resolve into an emitter bound to a triangle clears the mesh
    reference and keeps the buffers of the triangle: sampling still
    writes the position. *)
Theorem C4_parse_does_not_rebind :
  let record := serialize (new_MeshParticleEmitter (Some squareMesh)) in
  let parsed := parse (new_MeshParticleEmitter None) record (sceneOf [squareMesh]) in
  let gone := mkSerialized "MeshParticleEmitter" [Num 0; Num 1; Num 0] [Num 0; Num 1; Num 0]
                           (Some "gone"%string) true in
  let unbound := parse (new_MeshParticleEmitter (Some triangleMesh)) gone (sceneOf []) in
  (ser_meshId record = Some "square"%string /\
   getLastMeshByID (sceneOf [squareMesh]) "square" = Some squareMesh /\
   mesh parsed = Some squareMesh /\
   _indices parsed = None /\ _positions parsed = None /\ _normals parsed = None /\
   _indices (new_MeshParticleEmitter (Some squareMesh)) = Some [0; 1; 2; 0; 2; 3]%Z /\
   forall worldMatrix positionToUpdate s,
     startPositionFunction parsed worldMatrix positionToUpdate s
     = ((parsed, positionToUpdate), s))
  /\
  (getLastMeshByID (sceneOf []) "gone" = None /\
   mesh unbound = None /\
   _indices unbound = Some [0; 1; 2]%Z /\
   Vector3_eqb (snd (fst (startPositionFunction unbound Matrix.Identity (vec 7 7 7)
                                                (ambientOf [0; 1 # 2; 1 # 2]))))
               (vec (1 # 4) (1 # 4) 0) = true).
Proof.
  cbv zeta. split.
  - repeat (split; [reflexivity | ]).
    intros worldMatrix positionToUpdate s.
    apply startPositionFunction_absent. left. reflexivity.
  - repeat (split; [reflexivity | ]). reflexivity.
Qed.

(* ================================================================== *)
(** * Further properties of the emitter *)

(** ** What position sampling leaves alone *)

(** X5.  A position call changes nothing of the emitter but the cached
    normal: buffers, directions, flag and mesh reference are kept, so the
    serialized record is the same before and after; with normal mode off
    or normals absent the emitter is not changed at all. *)
Theorem X5_sampling_keeps_configuration (this : MeshParticleEmitter)
  (worldMatrix : Matrix.t) (positionToUpdate : Vector3.t) (s : Ambient) :
  let this' := fst (fst (startPositionFunction this worldMatrix positionToUpdate s)) in
  _indices this' = _indices this /\ _positions this' = _positions this /\
  _normals this' = _normals this /\
  direction1 this' = direction1 this /\ direction2 this' = direction2 this /\
  useMeshNormalsForDirection this' = useMeshNormalsForDirection this /\
  mesh this' = mesh this /\
  serialize this' = serialize this /\
  (normalMode this = false -> this' = this).
Proof.
  cbv zeta. unfold startPositionFunction, normalMode.
  destruct (_indices this) eqn:Ei, (_positions this) eqn:Ep; cbn;
    try (rewrite ?Ei, ?Ep; repeat split; reflexivity).
  destruct (useMeshNormalsForDirection this) eqn:Eu, (_normals this) eqn:En; cbn;
    rewrite ?Ei, ?Ep, ?Eu, ?En; repeat split; try reflexivity; discriminate.
Qed.

(** X6.  A position call that finds its index and position arrays takes
    exactly three draws from the random source, leaves the sequence of
    draws itself as it is, leaves the point before the world transform in
    scratch vector 3, and writes no scratch vector beyond the first
    four. *)
Theorem X6_sampling_effect_on_ambient (this : MeshParticleEmitter)
  (worldMatrix : Matrix.t) (positionToUpdate : Vector3.t) (s : Ambient)
  (indices : IndicesArray) (positions : FloatArray) :
  _indices this = Some indices -> _positions this = Some positions ->
  let s' := snd (startPositionFunction this worldMatrix positionToUpdate s) in
  cursor s' = (cursor s + 3)%nat /\
  draws s' = draws s /\
  TmpVectors_Vector3 s' 3
  = sampleOver positions indices (drawnFaceIndex indices s) (drawnWeights s) /\
  forall i, (4 <= i)%nat -> TmpVectors_Vector3 s' i = TmpVectors_Vector3 s i.
Proof.
  intros Hidx Hpos. cbv zeta. unfold startPositionFunction. rewrite Hidx, Hpos.
  destruct (useMeshNormalsForDirection this), (_normals this); cbn;
    (split; [lia | split; [reflexivity | split; [reflexivity | ]]]);
    intros i Hi; do 4 (destruct i as [ | i]; [lia | ]); reflexivity.
Qed.

Lemma X6_sampling_effect_on_ambient_witness :
  let this := new_MeshParticleEmitter (Some triangleMesh) in
  let s := ambientOf [0; 1 # 2; 1 # 2] in
  let indices := [0; 1; 2]%Z in
  let positions := nums [0; 0; 0; 1; 0; 0; 0; 1; 0] in
  let s' := snd (startPositionFunction this Matrix.Identity (vec 7 7 7) s) in
  (_indices this = Some indices /\ _positions this = Some positions) /\
  cursor s' = (cursor s + 3)%nat /\
  draws s' = draws s /\
  TmpVectors_Vector3 s' 3
  = sampleOver positions indices (drawnFaceIndex indices s) (drawnWeights s) /\
  forall i, (4 <= i)%nat -> TmpVectors_Vector3 s' i = TmpVectors_Vector3 s i.
Proof.
  cbv zeta. split; [split; reflexivity | ].
  apply (X6_sampling_effect_on_ambient
           (new_MeshParticleEmitter (Some triangleMesh)) Matrix.Identity (vec 7 7 7)
           (ambientOf [0; 1 # 2; 1 # 2]) [0; 1; 2]%Z (nums [0; 0; 0; 1; 0; 0; 0; 1; 0]));
    reflexivity.
Defined.

(** ** Direction before any position *)

(** X7.  An emitter just constructed on a mesh that has normals answers a
    direction call made before any position call with the normal
    transform of its initial cached normal, the zero vector: the result
    is numerically zero for every world matrix, and no draw is taken. *)
Theorem X7_direction_before_position_is_zero (msh : AbstractMesh) (normals : FloatArray)
  (worldMatrix : Matrix.t) (directionToUpdate : Vector3.t) (s : Ambient) :
  getVerticesData msh VertexBuffer.NormalKind = Some normals ->
  startDirectionFunction (new_MeshParticleEmitter (Some msh)) worldMatrix directionToUpdate s
  = (TransformNormalToRef Vector3.Zero worldMatrix, s) /\
  Vector3_eqb
    (fst (startDirectionFunction (new_MeshParticleEmitter (Some msh)) worldMatrix
                                 directionToUpdate s))
    (vec 0 0 0) = true.
Proof.
  intros Hn.
  assert (E : startDirectionFunction (new_MeshParticleEmitter (Some msh)) worldMatrix
                                     directionToUpdate s
              = (TransformNormalToRef Vector3.Zero worldMatrix, s)).
  { apply startDirectionFunction_normal. unfold normalMode. cbn. now rewrite Hn. }
  split; [exact E | ]. rewrite E.
  unfold TransformNormalToRef, TransformNormalFromFloatsToRef, Vector3.Zero, vec,
    Vector3_eqb, value_eqb, JS.add, JS.mul.
  cbn [fst Vector3.x Vector3.y Vector3.z ToNumber].
  rewrite !andb_true_iff. repeat split; apply Qeq_bool_iff; ring.
Qed.

Lemma X7_direction_before_position_is_zero_witness :
  getVerticesData squareMesh VertexBuffer.NormalKind
  = Some (nums [0; 0; 1; 0; 0; 1; 0; 0; 1; 0; 0; 1]) /\
  startDirectionFunction (new_MeshParticleEmitter (Some squareMesh)) Matrix.Identity
                         (vec 7 7 7) (ambientOf [])
  = (TransformNormalToRef Vector3.Zero Matrix.Identity, ambientOf []) /\
  Vector3_eqb
    (fst (startDirectionFunction (new_MeshParticleEmitter (Some squareMesh)) Matrix.Identity
                                 (vec 7 7 7) (ambientOf [])))
    (vec 0 0 0) = true.
Proof.
  split; [reflexivity | ].
  apply (X7_direction_before_position_is_zero squareMesh
           (nums [0; 0; 1; 0; 0; 1; 0; 0; 1; 0; 0; 1])).
  reflexivity.
Defined.

(** ** Parsing, serializing and cloning *)

Lemma truthy_nonempty (s : string) : s <> EmptyString -> truthy (Some s) = true.
Proof. destruct s; [congruence | reflexivity]. Qed.

Lemma parse_keeps_storedNormal (this : MeshParticleEmitter) (record : SerializationObject)
  (scene : Scene) :
  _storedNormal (parse this record scene) = _storedNormal this.
Proof.
  unfold parse. destruct (ser_meshId record) as [meshId | ];
    [destruct (truthy (Some meshId)) | ]; reflexivity.
Qed.

(** X8.  However many records are parsed into an emitter, its three
    buffers and its cached normal stay those it had; an emitter
    constructed without a mesh therefore still samples nothing afterwards,
    whatever the records name and the scene resolves. *)
Theorem X8_parse_never_rebinds (records : list SerializationObject) (scene : Scene)
  (this : MeshParticleEmitter) :
  (_indices (parseAll this records scene) = _indices this /\
   _positions (parseAll this records scene) = _positions this /\
   _normals (parseAll this records scene) = _normals this /\
   _storedNormal (parseAll this records scene) = _storedNormal this) /\
  forall worldMatrix positionToUpdate s,
    startPositionFunction (parseAll (new_MeshParticleEmitter None) records scene)
                          worldMatrix positionToUpdate s
    = ((parseAll (new_MeshParticleEmitter None) records scene, positionToUpdate), s).
Proof.
  assert (H : forall e,
             _indices (parseAll e records scene) = _indices e /\
             _positions (parseAll e records scene) = _positions e /\
             _normals (parseAll e records scene) = _normals e /\
             _storedNormal (parseAll e records scene) = _storedNormal e).
  { unfold parseAll. induction records as [ | record rest IH]; intros e; [now cbn | ].
    cbn [fold_left]. destruct (IH (parse e record scene)) as (-> & -> & -> & ->).
    destruct (parse_keeps_buffers e record scene) as (-> & -> & ->).
    now rewrite parse_keeps_storedNormal. }
  split; [apply H | ].
  intros worldMatrix positionToUpdate s. apply startPositionFunction_absent.
  left. now destruct (H (new_MeshParticleEmitter None)) as (-> & _).
Qed.

(** X9.  Parsing the record of an emitter bound to a mesh, with a scene
    that resolves the mesh's non-empty identifier to that mesh, gives the
    target the same mesh reference. *)
Theorem X9_mesh_reference_round_trip (e target : MeshParticleEmitter) (scene : Scene)
  (msh : AbstractMesh) :
  mesh e = Some msh -> id msh <> EmptyString ->
  getLastMeshByID scene (id msh) = Some msh ->
  mesh (parse target (serialize e) scene) = Some msh.
Proof.
  intros Hm Hid Hres. unfold parse, serialize. rewrite Hm.
  cbn [ser_meshId option_map]. rewrite (truthy_nonempty _ Hid). cbn. exact Hres.
Qed.

Lemma X9_mesh_reference_round_trip_witness :
  (mesh (new_MeshParticleEmitter (Some squareMesh)) = Some squareMesh /\
   id squareMesh <> EmptyString /\
   getLastMeshByID (sceneOf [triangleMesh; squareMesh]) (id squareMesh) = Some squareMesh) /\
  mesh (parse (new_MeshParticleEmitter None)
              (serialize (new_MeshParticleEmitter (Some squareMesh)))
              (sceneOf [triangleMesh; squareMesh]))
  = Some squareMesh.
Proof.
  split; [repeat split; evaluate | ].
  apply (X9_mesh_reference_round_trip (new_MeshParticleEmitter (Some squareMesh))
           (new_MeshParticleEmitter None) (sceneOf [triangleMesh; squareMesh]) squareMesh);
    evaluate.
Defined.

(** X10.  The mesh identifier of a record is used only when it is a
    non-empty string: a record without identifier or with the empty
    identifier leaves the target's mesh reference as it was, even when the
    scene would resolve it; a non-empty identifier replaces the reference
    by whatever the scene answers, so an identifier that does not resolve
    clears a reference the target had. *)
Theorem X10_mesh_identifier_gate (this : MeshParticleEmitter) (record : SerializationObject)
  (scene : Scene) :
  (ser_meshId record = None \/ ser_meshId record = Some EmptyString ->
   mesh (parse this record scene) = mesh this) /\
  (forall meshId, ser_meshId record = Some meshId -> meshId <> EmptyString ->
                  mesh (parse this record scene) = getLastMeshByID scene meshId).
Proof.
  split.
  - intros [H | H]; unfold parse; rewrite H; reflexivity.
  - intros meshId H Hne. unfold parse. rewrite H, (truthy_nonempty _ Hne). reflexivity.
Qed.

Lemma X10_mesh_identifier_gate_witness :
  let record := mkSerialized "MeshParticleEmitter" [Num 0; Num 1; Num 0] [Num 0; Num 1; Num 0]
                             (Some "gone"%string) true in
  let this := new_MeshParticleEmitter (Some triangleMesh) in
  (ser_meshId record = Some "gone"%string /\ "gone"%string <> EmptyString) /\
  mesh (parse this record (sceneOf [squareMesh])) = None.
Proof.
  cbv zeta. split; [split; evaluate | ].
  refine (proj2 (X10_mesh_identifier_gate _ _ _) "gone"%string _ _); evaluate.
Defined.




(** X13.  Bound to a mesh by [parse] alone an emitter keeps the buffers
    it had, but its clone has those of the mesh: cloning an emitter parsed
    from a record whose non-empty identifier the scene resolves gives,
    whatever the copier makes of the mesh reference, an emitter that holds
    the index, position and normal data of the resolved mesh, with the
    directions and the flag of the parsed emitter. *)
Theorem X13_clone_of_parsed_is_bound (meshCopy : AbstractMesh -> option AbstractMesh)
  (target : MeshParticleEmitter)
  (record : SerializationObject) (scene : Scene) (meshId : string) (msh : AbstractMesh) :
  ser_meshId record = Some meshId -> meshId <> EmptyString ->
  getLastMeshByID scene meshId = Some msh ->
  let parsed := parse target record scene in
  (_indices parsed = _indices target /\ mesh parsed = Some msh) /\
  _indices (clone meshCopy parsed) = getIndices msh /\
  _positions (clone meshCopy parsed) = getVerticesData msh VertexBuffer.PositionKind /\
  _normals (clone meshCopy parsed) = getVerticesData msh VertexBuffer.NormalKind /\
  direction1 (clone meshCopy parsed) = direction1 parsed /\
  direction2 (clone meshCopy parsed) = direction2 parsed /\
  useMeshNormalsForDirection (clone meshCopy parsed)
  = ser_useMeshNormalsForDirection record.
Proof.
  intros Hid Hne Hres. cbv zeta.
  assert (Hm : mesh (parse target record scene) = Some msh).
  { unfold parse. rewrite Hid, (truthy_nonempty _ Hne). cbn. exact Hres. }
  split; [split; [apply parse_keeps_buffers | exact Hm] | ].
  unfold clone, new_MeshParticleEmitter. rewrite Hm. cbn.
  repeat split; reflexivity.
Qed.

Lemma X13_clone_of_parsed_is_bound_witness :
  let record := serialize (new_MeshParticleEmitter (Some squareMesh)) in
  let parsed := parse (new_MeshParticleEmitter None) record (sceneOf [squareMesh]) in
  (ser_meshId record = Some "square"%string /\ "square"%string <> EmptyString /\
   getLastMeshByID (sceneOf [squareMesh]) "square" = Some squareMesh) /\
  _indices parsed = None /\
  _indices (clone DeepCopier.meshAsNull parsed) = Some [0; 1; 2; 0; 2; 3]%Z.
Proof.
  cbv zeta. split; [repeat split; evaluate | ].
  destruct (X13_clone_of_parsed_is_bound DeepCopier.meshAsNull
              (new_MeshParticleEmitter None)
              (serialize (new_MeshParticleEmitter (Some squareMesh)))
              (sceneOf [squareMesh]) "square"%string squareMesh)
    as ((Hkept & _) & Hidx & _); try evaluate.
  split; [exact Hkept | exact Hidx].
Defined.

(** ** The transcoder wrapper *)

